(** * uname26: run a program with the uname 2.6 personality

    A shallow embedding of [uname26.c].  The program is one function,
    [main], that talks to the operating system three times: it writes
    diagnostics to standard error, asks the kernel for a personality and
    asks for the process image to be replaced.  The embedding threads the
    process state through [main] in a small monad whose computations may
    also stop early: by [exit], by a successful [execvp], or by reading
    outside the argument vector. *)

From Stdlib Require Import NArith ZArith List String Ascii Bool Lia.
Import ListNotations.
Open Scope list_scope.
Open Scope string_scope.

(** ** The process as the kernel and the C library see it *)

(** [persona] is the kernel's personality attribute of the process,
    [errno] the C library's error variable and [stderr] everything written
    to standard error so far (the stream is unbuffered). *)
Record process : Type := mkProcess {
  persona : N;
  errno : Z;
  stderr : string
}.

Definition set_persona (p : N) (st : process) : process :=
  {| persona := p; errno := errno st; stderr := stderr st |}.

Definition set_errno (e : Z) (st : process) : process :=
  {| persona := persona st; errno := e; stderr := stderr st |}.

Definition write_stderr (s : string) (st : process) : process :=
  {| persona := persona st; errno := errno st; stderr := stderr st ++ s |}.

(** What the operating system answers to a personality request, and to a
    request to replace the process image: it either goes along or names an
    error code. *)
Inductive verdict : Type :=
| Accepted
| Rejected (e : Z).

(** [Loaded image image_argv]: the operating system has loaded [image] and
    starts it with vector [image_argv], which it builds from the vector
    handed over (the same vector for a binary, the interpreter's for a
    script). *)
Inductive exec_verdict : Type :=
| Loaded (image : string) (image_argv : list string)
| Refused (e : Z).

(** The operating-system calls a run makes, in order, with their answers. *)
Inductive call : Type :=
| CallPersonality (req : N) (v : verdict)
| CallExecvp (file : string) (argv : list string) (v : exec_verdict).

(** ** How a computation ends *)

(** [Returned a]: the C function returns [a].  [Exited n]: [exit(n)] was
    called.  [Replaced image argv]: the process now runs [image] with
    argument vector [argv], this program is gone.  [Undefined]: the program
    read through a pointer it may not read. *)
Inductive outcome (A : Type) : Type :=
| Returned (a : A)
| Exited (status : Z)
| Replaced (image : string) (argv : list string)
| Undefined.

Arguments Returned {A} a.
Arguments Exited {A} status.
Arguments Replaced {A} image argv.
Arguments Undefined {A}.

Record run (A : Type) : Type := mkRun {
  trace : list call;
  final : process;
  result : outcome A
}.

Arguments mkRun {A} trace final result.
Arguments trace {A} r.
Arguments final {A} r.
Arguments result {A} r.

Definition M (A : Type) : Type := process -> run A.

Definition ret {A : Type} (a : A) : M A :=
  fun st => mkRun [] st (Returned a).

Definition bind {A B : Type} (m : M A) (k : A -> M B) : M B :=
  fun st =>
    match m st with
    | mkRun t st' (Returned a) =>
        match k a st' with
        | mkRun t' st'' res => mkRun (t ++ t')%list st'' res
        end
    | mkRun t st' (Exited n) => mkRun t st' (Exited n)
    | mkRun t st' (Replaced image argv) => mkRun t st' (Replaced image argv)
    | mkRun t st' Undefined => mkRun t st' Undefined
    end.

Notation "x <- c1 ;; c2" := (bind c1 (fun x => c2))
  (at level 61, c1 at next level, right associativity).
Notation "c1 ;; c2" := (bind c1 (fun _ => c2))
  (at level 61, right associativity).

(** ** The argument vector *)

(** [char **av]: the strings [av[0]], ..., [av[n-1]] followed by the null
    pointer [av[n]].  The list holds the [n] strings; the terminator is
    implicit, so the array has [n + 1] slots. *)
Definition argv : Type := list string.

Inductive ptr : Type :=
| Null
| Str (s : string).

Definition is_null (p : ptr) : bool :=
  match p with
  | Null => true
  | Str _ => false
  end.

(** The slot [av[i]], when the array has one. *)
Definition slot (av : argv) (i : nat) : option ptr :=
  match nth_error av i with
  | Some s => Some (Str s)
  | None => if Nat.eqb i (List.length av) then Some Null else None
  end.

Definition in_bounds (av : argv) (i : nat) : bool :=
  Nat.leb i (List.length av).

(** Reading [av[i]]. *)
Definition load (av : argv) (i : nat) : M ptr :=
  fun st =>
    match slot av i with
    | Some p => mkRun [] st (Returned p)
    | None => mkRun [] st Undefined
    end.

(** The vector [av + k]. *)
Definition av_plus (av : argv) (k : nat) : argv := skipn k av.

(** Using a pointer as a C string. *)
Definition cstr (p : ptr) : M string :=
  fun st =>
    match p with
    | Str s => mkRun [] st (Returned s)
    | Null => mkRun [] st Undefined
    end.

(** ** The C library *)

Definition nl : string := String (ascii_of_nat 10) EmptyString.

(** [fprintf(stderr, ...)] with the text already formatted. *)
Definition fprintf_stderr (s : string) : M unit :=
  fun st => mkRun [] (write_stderr s st) (Returned tt).

(** [exit(n)]. *)
Definition exit {A : Type} (n : Z) : M A :=
  fun st => mkRun [] st (Exited n).

Definition get_errno : M Z :=
  fun st => mkRun [] st (Returned (errno st)).

(** The [int] that [personality] returns for a previous persona [p]: its low
    32 bits read as a signed number. *)
Definition int_of_persona (p : N) : Z :=
  let u := (Z.of_N p mod 2 ^ 32)%Z in
  if (u <? 2 ^ 31)%Z then u else (u - 2 ^ 32)%Z.

(** ** A sample platform

    Linux values, used to run the program on concrete invocations. *)

Definition EPERM : Z := 1.
Definition ENOENT : Z := 2.
Definition EINVAL : Z := 22.

Definition strerror_linux (e : Z) : string :=
  if Z.eqb e 0 then "Success"
  else if Z.eqb e EPERM then "Operation not permitted"
  else if Z.eqb e ENOENT then "No such file or directory"
  else if Z.eqb e EINVAL then "Invalid argument"
  else "Unknown error".

Definition kernel_accepts (req : N) (st : process) : verdict := Accepted.

Definition kernel_rejects (req : N) (st : process) : verdict := Rejected EINVAL.


(** A search path on which [echo] and the launcher itself are found as
    binaries and [hello] as a shell script. *)
Definition sample_path (file : string) (args : list string) (st : process)
  : exec_verdict :=
  if String.eqb file "echo" then Loaded "/bin/echo" args
  else if String.eqb file "/bin/echo" then Loaded "/bin/echo" args
  else if String.eqb file "uname26" then Loaded "/usr/bin/uname26" args
  else if String.eqb file "hello" then
    Loaded "/bin/sh" ("/bin/sh" :: "/usr/bin/hello" :: tl args)
  else Refused ENOENT.


Definition fresh : process :=
  {| persona := 0%N; errno := 0%Z; stderr := "" |}.


(** A process whose persona has the top bit of the word set. *)
Definition top_bit_set : process :=
  {| persona := 0x80000000%N; errno := 0%Z; stderr := "" |}.

Section Launcher.

(** [PER_LINUX] comes from <sys/personality.h>, [strerror] from <string.h>.
    [kernel_personality req st] is the kernel's answer when a process in
    state [st] asks for personality [req]; [search_exec file args st] is the
    answer of the image replacement that looks [file] up on the executable
    search path: the image it loads and the vector it starts the image
    with, or an error code. *)
Variable PER_LINUX : N.
Variable strerror : Z -> string.
Variable kernel_personality : N -> process -> verdict.
Variable search_exec : string -> list string -> process -> exec_verdict.

(** [perror(s)]: [s], a colon and a blank, the description of [errno], a
    newline. *)
Definition perror (s : string) : M unit :=
  fun st => mkRun [] (write_stderr (s ++ ": " ++ strerror (errno st) ++ nl) st)
                  (Returned tt).

(** [personality(req)]: on success the persona is replaced and the previous
    one returned; on error -1 is returned and [errno] set.  The function
    returns an [int], so a previous persona with bit 31 set comes back as a
    negative number. *)
Definition personality (req : N) : M Z :=
  fun st =>
    match kernel_personality req st with
    | Accepted =>
        mkRun [CallPersonality req Accepted] (set_persona req st)
              (Returned (int_of_persona (persona st)))
    | Rejected e =>
        mkRun [CallPersonality req (Rejected e)] (set_errno e st)
              (Returned (-1)%Z)
    end.

(** [execvp(file, args)]: returns only on error, with -1 and [errno] set. *)
Definition execvp (file : ptr) (args : argv) : M Z :=
  name <- cstr file ;;
  fun st =>
    match search_exec name args st with
    | Loaded image image_argv =>
        mkRun [CallExecvp name args (Loaded image image_argv)] st
              (Replaced image image_argv)
    | Refused e =>
        mkRun [CallExecvp name args (Refused e)] (set_errno e st)
              (Returned (-1)%Z)
    end.

(** ** The program *)

Definition UNAME26 : N := 0x0020000.

Definition usage : string :=
  "Usage: uname26 program ..." ++ nl ++
  "Run program with the uname 2.6 personality" ++ nl.

Definition main (ac : Z) (av : argv) : M Z :=
  p <- load av 1 ;;
  (if is_null p then fprintf_stderr usage ;; exit 1 else ret tt) ;;
  r <- personality (N.lor PER_LINUX UNAME26) ;;
  (if (r <? 0)%Z then perror "personality" ;; exit 1 else ret tt) ;;
  file <- load av 1 ;;
  execvp file (av_plus av 1) ;;
  target <- load av 1 ;;
  name <- cstr target ;;
  e <- get_errno ;;
  fprintf_stderr ("Cannot execute " ++ name ++ ": " ++ strerror e ++ nl) ;;
  exit 1.

(** The personality the program asks for. *)
Definition requested : N := N.lor PER_LINUX UNAME26.

(** ** Reading a run *)

Definition is_personality (c : call) : bool :=
  match c with
  | CallPersonality _ _ => true
  | CallExecvp _ _ _ => false
  end.

(** A call that changed the personality attribute. *)
Definition mutates_persona (c : call) : bool :=
  match c with
  | CallPersonality _ Accepted => true
  | _ => false
  end.

Definition count_calls (f : call -> bool) (t : list call) : nat :=
  List.length (filter f t).


(** The image replacement was asked for. *)
Definition reaches_execvp (r : run Z) : Prop :=
  exists file args v, In (CallExecvp file args v) (trace r).

(** What [perror("personality")] prints for error [e]. *)
Definition personality_report (e : Z) : string :=
  "personality" ++ ": " ++ strerror e ++ nl.

(** What the program prints when [execvp] fails with error [e]. *)
Definition cannot_execute (target : string) (e : Z) : string :=
  "Cannot execute " ++ target ++ ": " ++ strerror e ++ nl.



(** ** The six ways a run of [main] goes *)

Inductive behaviour (av : argv) (st : process) : run Z -> Prop :=
| NoVector :
    av = [] ->
    behaviour av st (mkRun [] st Undefined)
| NoTarget prog :
    av = [prog] ->
    behaviour av st (mkRun [] (write_stderr usage st) (Exited 1))
| PersonalityRejected prog target rest e :
    av = prog :: target :: rest ->
    kernel_personality requested st = Rejected e ->
    behaviour av st
      (mkRun [CallPersonality requested (Rejected e)]
             (write_stderr (personality_report e) (set_errno e st))
             (Exited 1))
| ReturnNegative prog target rest :
    av = prog :: target :: rest ->
    kernel_personality requested st = Accepted ->
    N.testbit (persona st) 31 = true ->
    behaviour av st
      (mkRun [CallPersonality requested Accepted]
             (write_stderr (personality_report (errno st))
                (set_persona requested st))
             (Exited 1))
| ImageReplaced prog target rest image image_argv :
    av = prog :: target :: rest ->
    kernel_personality requested st = Accepted ->
    N.testbit (persona st) 31 = false ->
    search_exec target (target :: rest) (set_persona requested st)
      = Loaded image image_argv ->
    behaviour av st
      (mkRun [CallPersonality requested Accepted;
              CallExecvp target (target :: rest) (Loaded image image_argv)]
             (set_persona requested st)
             (Replaced image image_argv))
| ExecRefused prog target rest e :
    av = prog :: target :: rest ->
    kernel_personality requested st = Accepted ->
    N.testbit (persona st) 31 = false ->
    search_exec target (target :: rest) (set_persona requested st)
      = Refused e ->
    behaviour av st
      (mkRun [CallPersonality requested Accepted;
              CallExecvp target (target :: rest) (Refused e)]
             (write_stderr (cannot_execute target e)
                (set_errno e (set_persona requested st)))
             (Exited 1)).

(** ** Stepping through the program *)

Lemma int_of_persona_negative (p : N) :
  (int_of_persona p <? 0)%Z = N.testbit p 31.
Proof.
  unfold int_of_persona.
  change 31%N with (Z.to_N 31).
  rewrite <- (Z.testbit_of_N' p 31) by lia.
  rewrite <- (Z.mod_pow2_bits_low (Z.of_N p) 32 31) by lia.
  pose proof (Z.mod_pos_bound (Z.of_N p) (2 ^ 32) eq_refl) as Hu.
  set (u := (Z.of_N p mod 2 ^ 32)%Z) in *.
  destruct (Z.ltb_spec u (2 ^ 31)) as [Hlt|Hge].
  - transitivity false.
    + apply Z.ltb_ge. lia.
    + symmetry. apply Z.testbit_false; [lia |].
      rewrite Z.div_small by lia. reflexivity.
  - transitivity true.
    + apply Z.ltb_lt. lia.
    + symmetry. apply Z.testbit_true; [lia |].
      replace (u / 2 ^ 31)%Z with 1%Z; [reflexivity |].
      apply Z.div_unique with (r := (u - 2 ^ 31)%Z); lia.
Qed.

Lemma main_no_vector (ac : Z) (st : process) :
  main ac [] st = mkRun [] st Undefined.
Proof.
  reflexivity.
Qed.

Lemma main_no_target (ac : Z) (prog : string) (st : process) :
  main ac [prog] st = mkRun [] (write_stderr usage st) (Exited 1).
Proof.
  reflexivity.
Qed.

Lemma main_rejected (ac : Z) (prog target : string) (rest : list string)
    (st : process) (e : Z) :
  kernel_personality requested st = Rejected e ->
  main ac (prog :: target :: rest) st =
  mkRun [CallPersonality requested (Rejected e)]
        (write_stderr (personality_report e) (set_errno e st))
        (Exited 1).
Proof.
  intros Hk.
  unfold main, bind, load, personality; cbn.
  fold requested. rewrite Hk. cbn.
  reflexivity.
Qed.

Lemma main_return_negative (ac : Z) (prog target : string)
    (rest : list string) (st : process) :
  kernel_personality requested st = Accepted ->
  N.testbit (persona st) 31 = true ->
  main ac (prog :: target :: rest) st =
  mkRun [CallPersonality requested Accepted]
        (write_stderr (personality_report (errno st))
           (set_persona requested st))
        (Exited 1).
Proof.
  intros Hk Htop.
  unfold main, bind, load, personality; cbn.
  fold requested. rewrite Hk. cbn.
  rewrite int_of_persona_negative, Htop. cbn.
  reflexivity.
Qed.

Lemma main_replaced (ac : Z) (prog target : string) (rest : list string)
    (st : process) (image : string) (image_argv : list string) :
  kernel_personality requested st = Accepted ->
  N.testbit (persona st) 31 = false ->
  search_exec target (target :: rest) (set_persona requested st)
    = Loaded image image_argv ->
  main ac (prog :: target :: rest) st =
  mkRun [CallPersonality requested Accepted;
         CallExecvp target (target :: rest) (Loaded image image_argv)]
        (set_persona requested st)
        (Replaced image image_argv).
Proof.
  intros Hk Htop Hx.
  unfold main, bind, load, personality, execvp, bind, cstr; cbn.
  fold requested. rewrite Hk. cbn.
  rewrite int_of_persona_negative, Htop. cbn.
  rewrite Hx. cbn.
  reflexivity.
Qed.

Lemma main_refused (ac : Z) (prog target : string) (rest : list string)
    (st : process) (e : Z) :
  kernel_personality requested st = Accepted ->
  N.testbit (persona st) 31 = false ->
  search_exec target (target :: rest) (set_persona requested st)
    = Refused e ->
  main ac (prog :: target :: rest) st =
  mkRun [CallPersonality requested Accepted;
         CallExecvp target (target :: rest) (Refused e)]
        (write_stderr (cannot_execute target e)
           (set_errno e (set_persona requested st)))
        (Exited 1).
Proof.
  intros Hk Htop Hx.
  unfold main, bind, load, personality, execvp, bind, cstr; cbn.
  fold requested. rewrite Hk. cbn.
  rewrite int_of_persona_negative, Htop. cbn.
  rewrite Hx. cbn.
  reflexivity.
Qed.

Lemma main_behaviour (ac : Z) (av : argv) (st : process) :
  behaviour av st (main ac av st).
Proof.
  destruct av as [|prog [|target rest]].
  - rewrite main_no_vector. now constructor.
  - rewrite main_no_target. now apply (NoTarget _ _ prog).
  - destruct (kernel_personality requested st) as [|e] eqn:Hk.
    + destruct (N.testbit (persona st) 31) eqn:Htop.
      * rewrite (main_return_negative ac prog target rest st Hk Htop).
        now apply (ReturnNegative _ _ prog target rest).
      * destruct (search_exec target (target :: rest)
                    (set_persona requested st)) as [image image_argv|e]
          eqn:Hx.
        -- rewrite (main_replaced ac prog target rest st image image_argv
                      Hk Htop Hx).
           now apply (ImageReplaced _ _ prog target rest image image_argv).
        -- rewrite (main_refused ac prog target rest st e Hk Htop Hx).
           now apply (ExecRefused _ _ prog target rest e).
    + rewrite (main_rejected ac prog target rest st e Hk).
      now apply (PersonalityRejected _ _ prog target rest e).
Qed.

(** ** Facts on strings and traces *)

Lemma append_cancel_l (s a b : string) :
  s ++ a = s ++ b -> a = b.
Proof.
  induction s as [|c s IH]; cbn; intros H.
  - exact H.
  - injection H as H. now apply IH.
Qed.

Lemma report_is_not_usage (e : Z) : personality_report e <> usage.
Proof.
  unfold personality_report, usage. cbn. discriminate.
Qed.


Lemma slot_in_bounds (av : argv) (i : nat) :
  slot av i <> None <-> in_bounds av i = true.
Proof.
  unfold slot, in_bounds.
  destruct (nth_error av i) as [s|] eqn:Hn.
  - split; [intros _ | discriminate].
    apply Nat.leb_le. apply Nat.lt_le_incl.
    apply nth_error_Some. congruence.
  - apply nth_error_None in Hn.
    destruct (Nat.eqb_spec i (List.length av)) as [->|Hne].
    + split; [intros _ | discriminate]. apply Nat.leb_refl.
    + split; [congruence | ].
      intros Hle. apply Nat.leb_le in Hle. lia.
Qed.

Lemma not_split_nil (pre post : list call) (c : call) :
  [] <> (pre ++ c :: post)%list.
Proof.
  apply app_cons_not_nil.
Qed.

Lemma split_one (pre post : list call) (c d : call) :
  [d] = (pre ++ c :: post)%list -> pre = [] /\ c = d /\ post = [].
Proof.
  destruct pre as [|a pre]; cbn; intros H.
  - injection H as -> <-. auto.
  - injection H as _ H. now apply not_split_nil in H.
Qed.

Lemma split_two (pre post : list call) (c d1 d2 : call) :
  [d1; d2] = (pre ++ c :: post)%list ->
  (pre = [] /\ c = d1 /\ post = [d2]) \/
  (pre = [d1] /\ c = d2 /\ post = []).
Proof.
  destruct pre as [|a pre]; cbn; intros H.
  - injection H as -> <-. auto.
  - injection H as <- H. apply split_one in H as (-> & -> & ->). auto.
Qed.

Ltac by_behaviour ac av st :=
  destruct (main_behaviour ac av st)
    as [Hav | prog Hav | prog target rest e Hav Hk
        | prog target rest Hav Hk Htop
        | prog target rest image image_argv Hav Hk Htop Hx
        | prog target rest e Hav Hk Htop Hx];
  cbn [trace final result].

(** ** What a trace tells about the run *)





(** ** The missing-argument path *)

(** C3.  An invocation with nothing after the program name writes exactly
    the two usage lines to standard error and exits with status 1; it asks
    the operating system neither for a personality nor for an image
    replacement, and the personality of the process is untouched. *)
Theorem usage_on_missing_target (ac : Z) (prog : string) (st : process) :
  let r := main ac [prog] st in
  stderr (final r) =
    stderr st ++ "Usage: uname26 program ..." ++ nl ++
                 "Run program with the uname 2.6 personality" ++ nl /\
  result r = Exited 1 /\
  trace r = [] /\
  persona (final r) = persona st.
Proof.
  intros r. subst r.
  rewrite main_no_target.
  cbn [trace final result stderr persona write_stderr].
  unfold usage.
  repeat split.
Qed.

(** ** The guard on [av[1]] *)

(** C9.  [main] never consults [ac]: its run is the same for every value of
    it.  The guard's read of [av[1]] lies inside the vector exactly when the
    vector holds at least one string, that is when [ac >= 1] for an [ac]
    that counts the strings; in that case a missing target shows as the
    terminating null pointer.  On the empty vector the read is outside the
    array and the run is undefined from there on. *)
Theorem guard_reads_av1_without_ac :
  (forall ac ac' av st, main ac av st = main ac' av st) /\
  (forall ac av, ac = Z.of_nat (List.length av) ->
     (slot av 1 <> None <-> (1 <= ac)%Z)) /\
  (forall prog, slot [prog] 1 = Some Null) /\
  (slot [] 1 = None) /\
  (forall ac av st, slot av 1 = None ->
     main ac av st = mkRun [] st Undefined).
Proof.
  split; [| split; [| split; [| split]]].
  - intros ac ac' av st. reflexivity.
  - intros ac av ->.
    rewrite slot_in_bounds. unfold in_bounds.
    rewrite Nat.leb_le. lia.
  - intros prog. reflexivity.
  - reflexivity.
  - intros ac av st Hs.
    destruct av as [|prog [|target rest]]; cbn in Hs; try discriminate.
    apply main_no_vector.
Qed.

(** ** The personality request *)

(** C5.  [UNAME26] is 0x0020000, the single bit 17.  Every personality
    request a run makes asks for [PER_LINUX | UNAME26], no other value is
    ever requested, and a run with a target does make that request. *)
Theorem personality_request_value (ac : Z) (av : argv) (st : process) :
  UNAME26 = 0x0020000%N /\
  (forall i, N.testbit UNAME26 i = N.eqb 17 i) /\
  (forall req v, In (CallPersonality req v) (trace (main ac av st)) ->
     req = N.lor PER_LINUX UNAME26) /\
  (forall prog target rest, av = prog :: target :: rest ->
     exists v, In (CallPersonality (N.lor PER_LINUX UNAME26) v)
                  (trace (main ac av st))).
Proof.
  split; [reflexivity | split; [| split]].
  - intros i. change UNAME26 with (2 ^ 17)%N. apply N.pow2_bits_eqb.
  - intros req v.
    by_behaviour ac av st; cbn; intros Hin;
      repeat (destruct Hin as [Hin|Hin]; [try discriminate Hin |]);
      try contradiction;
      injection Hin as <- _; reflexivity.
  - intros prog0 target0 rest0 Hav0. fold requested.
    by_behaviour ac av st; try congruence.
    + exists (Rejected e). now left.
    + exists Accepted. now left.
    + exists Accepted. now left.
    + exists Accepted. now left.
Qed.

(** ** Order of the operating-system calls *)

(** C6.  In every run an image-replacement call is preceded by exactly one
    call, the personality request, and that request was accepted; nothing
    follows it.  A run makes at most one personality request, so it changes
    the personality attribute at most once, and whenever the image
    replacement is reached the attribute already holds the requested
    value. *)
Theorem personality_before_execvp (ac : Z) (av : argv) (st : process) :
  let r := main ac av st in
  (forall pre file args v post,
     trace r = (pre ++ CallExecvp file args v :: post)%list ->
     pre = [CallPersonality requested Accepted] /\ post = []) /\
  (count_calls is_personality (trace r) <= 1)%nat /\
  (count_calls mutates_persona (trace r) <= 1)%nat /\
  (reaches_execvp r -> persona (final r) = requested) /\
  (persona (final r) = persona st \/ persona (final r) = requested).
Proof.
  intros r. subst r.
  split; [| split; [| split; [| split]]].
  - intros pre file args v post.
    by_behaviour ac av st; intros Hsplit.
    + now apply not_split_nil in Hsplit.
    + now apply not_split_nil in Hsplit.
    + apply split_one in Hsplit as (_ & Hc & _). discriminate Hc.
    + apply split_one in Hsplit as (_ & Hc & _). discriminate Hc.
    + apply split_two in Hsplit as [(_ & Hc & _)|(Hpre & _ & Hpost)];
        [discriminate Hc | now split].
    + apply split_two in Hsplit as [(_ & Hc & _)|(Hpre & _ & Hpost)];
        [discriminate Hc | now split].
  - unfold count_calls.
    by_behaviour ac av st; cbn [filter is_personality List.length]; lia.
  - unfold count_calls.
    by_behaviour ac av st; cbn [filter mutates_persona List.length]; lia.
  - unfold reaches_execvp.
    by_behaviour ac av st; intros (file & args & v & Hin);
      try reflexivity.
    + destruct Hin.
    + destruct Hin.
    + destruct Hin as [Hc|[]]. discriminate Hc.
  - by_behaviour ac av st; cbn [persona write_stderr set_errno set_persona];
      auto.
Qed.

(** ** The personality error path *)


(** ** The image replacement *)

(** C1, as the program has it.  With a target present, the personality
    request accepted and bit 31 of the previous personality clear, the run
    asks for the image replacement that searches the executable path for
    the target name as given; the argument vector handed over is [av + 1]:
    the target name as argument zero, then every later argument, unmodified
    and in order.  When the operating system loads an image for the request,
    the process becomes that image, started with the vector the operating
    system built, and runs with the requested personality. *)
Theorem execvp_called_with_target_vector (ac : Z) (prog target : string)
    (rest : list string) (st : process) :
  kernel_personality requested st = Accepted ->
  N.testbit (persona st) 31 = false ->
  let av := prog :: target :: rest in
  let r := main ac av st in
  let v := search_exec target (av_plus av 1) (set_persona requested st) in
  av_plus av 1 = target :: rest /\
  trace r = [CallPersonality requested Accepted;
             CallExecvp target (av_plus av 1) v] /\
  (forall image image_argv, v = Loaded image image_argv ->
     result r = Replaced image image_argv /\
     persona (final r) = requested).
Proof.
  intros Hk Htop av r v. subst av r v.
  change (av_plus (prog :: target :: rest) 1) with (target :: rest).
  split; [reflexivity |].
  destruct (search_exec target (target :: rest) (set_persona requested st))
    as [image image_argv|e] eqn:Hx.
  - rewrite (main_replaced ac prog target rest st image image_argv
               Hk Htop Hx).
    split; [reflexivity |].
    intros image' argv' Himage. injection Himage as <- <-. now split.
  - rewrite (main_refused ac prog target rest st e Hk Htop Hx).
    split; [reflexivity |].
    intros image argv' Himage. discriminate Himage.
Qed.

(** C4.  Whenever the image-replacement call of a run fails, the run writes
    [Cannot execute <target>: <description>] and a newline to standard
    error, with the target name as given in [av[1]] and the description of
    the error code the call failed with, and exits with status 1. *)
Theorem cannot_execute_report (ac : Z) (av : argv) (st : process)
    (file : string) (args : list string) (err : Z) :
  In (CallExecvp file args (Refused err)) (trace (main ac av st)) ->
  slot av 1 = Some (Str file) /\
  stderr (final (main ac av st)) =
    stderr st ++ "Cannot execute " ++ file ++ ": " ++ strerror err ++ nl /\
  result (main ac av st) = Exited 1.
Proof.
  by_behaviour ac av st; intros Hin.
  - destruct Hin.
  - destruct Hin.
  - destruct Hin as [Hc|[]]. discriminate Hc.
  - destruct Hin as [Hc|[]]. discriminate Hc.
  - destruct Hin as [Hc|[Hc|[]]]; discriminate Hc.
  - destruct Hin as [Hc|[Hc|[]]]; [discriminate Hc |].
    injection Hc as <- _ <-. subst av.
    repeat split.
Qed.

(** C10.  When the image-replacement call fails, the personality request
    before it had been accepted and is the only one the run makes: nothing
    puts the previous personality back.  The run exits with status 1 and
    leaves the process with personality [PER_LINUX | UNAME26]. *)
Theorem personality_kept_on_exec_failure (ac : Z) (av : argv) (st : process)
    (file : string) (args : list string) (err : Z) :
  In (CallExecvp file args (Refused err)) (trace (main ac av st)) ->
  let r := main ac av st in
  result r = Exited 1 /\
  persona (final r) = N.lor PER_LINUX UNAME26 /\
  trace r = [CallPersonality (N.lor PER_LINUX UNAME26) Accepted;
             CallExecvp file args (Refused err)] /\
  count_calls is_personality (trace r) = 1%nat.
Proof.
  intros Hin r. subst r. revert Hin. fold requested.
  by_behaviour ac av st; intros Hin.
  - destruct Hin.
  - destruct Hin.
  - destruct Hin as [Hc|[]]. discriminate Hc.
  - destruct Hin as [Hc|[]]. discriminate Hc.
  - destruct Hin as [Hc|[Hc|[]]]; discriminate Hc.
  - destruct Hin as [Hc|[Hc|[]]]; [discriminate Hc |].
    injection Hc as <- <- <-.
    repeat split.
Qed.

(** ** Exit status *)


(** C7.  Whatever the arguments after the program name and whatever the
    operating system answers, a run either ends in a successful image
    replacement or exits with status 1.  On no argument vector at all does
    the program exit with another status, and [main] never returns to its
    caller. *)
Theorem exit_status_is_one (ac : Z) (st : process) :
  (forall prog args,
     let r := main ac (prog :: args) st in
     result r = Exited 1 \/
     exists image image_argv file args',
       result r = Replaced image image_argv /\
       In (CallExecvp file args' (Loaded image image_argv)) (trace r)) /\
  (forall av n, result (main ac av st) = Exited n -> n = 1%Z) /\
  (forall av a, result (main ac av st) <> Returned a).
Proof.
  split; [| split].
  - intros prog0 args r. subst r.
    remember (prog0 :: args) as av eqn:Heq.
    by_behaviour ac av st.
    + congruence.
    + now left.
    + now left.
    + now left.
    + right. exists image, image_argv, target, (target :: rest).
      split; [reflexivity |]. right. now left.
    + now left.
  - intros av n. by_behaviour ac av st; intros Hres;
      try discriminate Hres; now injection Hres as <-.
  - intros av a. by_behaviour ac av st; discriminate.
Qed.

(** ** Asking for the personality again *)





(** ** Further properties of a run *)

Lemma append_same_inv (s a : string) :
  s ++ a = s -> a = "".
Proof.
  induction s as [|c s IH]; cbn; intros H.
  - exact H.
  - injection H as H. now apply IH.
Qed.

Lemma append_assoc_string (a b c : string) :
  (a ++ b) ++ c = a ++ (b ++ c).
Proof.
  induction a as [|x a IH]; cbn.
  - reflexivity.
  - now rewrite IH.
Qed.

Lemma usage_is_not_cannot_execute (target : string) (e : Z) :
  cannot_execute target e <> usage.
Proof.
  unfold cannot_execute, usage. cbn. discriminate.
Qed.

(** X1.  On a vector that holds the program name, the usage text is what a
    run adds to standard error exactly when nothing follows the program
    name: a target that is present, even the empty string, is never
    answered with the usage text. *)
Theorem usage_iff_program_name_only (ac : Z) (name : string)
    (args : list string) (st : process) :
  stderr (final (main ac (name :: args) st)) = stderr st ++ usage <->
  args = [].
Proof.
  split.
  - remember (name :: args) as av eqn:Heq. revert Heq.
    by_behaviour ac av st; cbn [stderr write_stderr set_errno set_persona];
      intros Heq Herr.
    + congruence.
    + congruence.
    + apply append_cancel_l in Herr. now apply report_is_not_usage in Herr.
    + apply append_cancel_l in Herr. now apply report_is_not_usage in Herr.
    + symmetry in Herr. apply append_same_inv in Herr. discriminate Herr.
    + apply append_cancel_l in Herr.
      now apply usage_is_not_cannot_execute in Herr.
  - intros ->. now rewrite main_no_target.
Qed.


(** X3.  The program name [av[0]] has no part in a run: two vectors that
    differ in it only give the same run.  In particular the usage text
    names [uname26] however the program was called. *)
Theorem program_name_is_ignored (ac : Z) (prog prog' : string)
    (args : list string) (st : process) :
  main ac (prog :: args) st = main ac (prog' :: args) st.
Proof.
  destruct args as [|target rest].
  - now rewrite !main_no_target.
  - destruct (kernel_personality requested st) as [|e] eqn:Hk.
    + destruct (N.testbit (persona st) 31) eqn:Htop.
      * now rewrite !(main_return_negative ac _ target rest st Hk Htop).
      * destruct (search_exec target (target :: rest)
                    (set_persona requested st)) as [image image_argv|e]
          eqn:Hx.
        -- now rewrite !(main_replaced ac _ target rest st image image_argv
                           Hk Htop Hx).
        -- now rewrite !(main_refused ac _ target rest st e Hk Htop Hx).
    + now rewrite !(main_rejected ac _ target rest st e Hk).
Qed.

(** X4.  A run writes to standard error exactly when it exits, and what it
    then adds ends in a newline.  A run that replaces the process image has
    written nothing and has left [errno] alone: all it changed is the
    personality. *)
Theorem diagnostic_iff_exit (ac : Z) (av : argv) (st : process) :
  let r := main ac av st in
  (result r = Exited 1 <-> stderr (final r) <> stderr st) /\
  (forall n, result r = Exited n ->
     exists text, stderr (final r) = stderr st ++ text ++ nl) /\
  (forall img argv', result r = Replaced img argv' ->
     final r = set_persona (N.lor PER_LINUX UNAME26) st).
Proof.
  intros r. subst r. fold requested.
  split; [split | split].
  - by_behaviour ac av st; cbn [stderr write_stderr set_errno set_persona];
      intros Hres Herr; try discriminate Hres.
    + apply append_same_inv in Herr. discriminate Herr.
    + apply append_same_inv in Herr. discriminate Herr.
    + apply append_same_inv in Herr. discriminate Herr.
    + apply append_same_inv in Herr. discriminate Herr.
  - by_behaviour ac av st; cbn [stderr write_stderr set_errno set_persona];
      intros Herr; try reflexivity; now contradiction Herr.
  - intros n.
    by_behaviour ac av st; cbn [stderr write_stderr set_errno set_persona];
      intros Hres; try discriminate Hres.
    + exists ("Usage: uname26 program ..." ++ nl ++
              "Run program with the uname 2.6 personality").
      reflexivity.
    + exists ("personality: " ++ strerror e).
      unfold personality_report. now rewrite append_assoc_string.
    + exists ("personality: " ++ strerror (errno st)).
      unfold personality_report. now rewrite append_assoc_string.
    + exists ("Cannot execute " ++ target ++ ": " ++ strerror e).
      unfold cannot_execute. now rewrite !append_assoc_string.
  - intros img argv'.
    by_behaviour ac av st; intros Hres; try discriminate Hres.
    reflexivity.
Qed.

(** X5.  Whenever a run asks for the image replacement, the file it names
    is [av[1]] and the vector it passes is the launcher's own shifted by
    one: it is never empty, its string [i] is the launcher's string
    [i + 1], and it is one string shorter. *)
Theorem target_vector_is_shifted (ac : Z) (av : argv) (st : process)
    (file : string) (args : list string) (v : exec_verdict) :
  In (CallExecvp file args v) (trace (main ac av st)) ->
  nth_error av 1 = Some file /\
  nth_error args 0 = Some file /\
  (forall i, nth_error args i = nth_error av (S i)) /\
  S (List.length args) = List.length av.
Proof.
  by_behaviour ac av st; intros Hin.
  - destruct Hin.
  - destruct Hin.
  - destruct Hin as [Hc|[]]. discriminate Hc.
  - destruct Hin as [Hc|[]]. discriminate Hc.
  - destruct Hin as [Hc|[Hc|[]]]; [discriminate Hc |].
    injection Hc as <- <- _. subst av. repeat split.
  - destruct Hin as [Hc|[Hc|[]]]; [discriminate Hc |].
    injection Hc as <- <- _. subst av. repeat split.
Qed.

End Launcher.

(** ** The program on the sample platform *)

(** The sample platform has [PER_LINUX = 0], as Linux has. *)

Example run_echo :
  main 0 strerror_linux kernel_accepts sample_path 4
       ["uname26"; "/bin/echo"; "hello"; "world"] fresh =
  mkRun [CallPersonality 0x0020000 Accepted;
         CallExecvp "/bin/echo" ["/bin/echo"; "hello"; "world"]
                    (Loaded "/bin/echo" ["/bin/echo"; "hello"; "world"])]
        {| persona := 0x0020000; errno := 0; stderr := "" |}
        (Replaced "/bin/echo" ["/bin/echo"; "hello"; "world"]).
Proof.
  apply main_replaced; reflexivity.
Qed.

Example run_missing_target :
  main 0 strerror_linux kernel_accepts sample_path 3
       ["uname26"; "nonesuch"; "-v"] fresh =
  mkRun [CallPersonality 0x0020000 Accepted;
         CallExecvp "nonesuch" ["nonesuch"; "-v"] (Refused ENOENT)]
        {| persona := 0x0020000; errno := ENOENT;
           stderr := "Cannot execute nonesuch: No such file or directory"
                     ++ nl |}
        (Exited 1).
Proof.
  rewrite (main_refused _ _ _ _ _ _ _ _ _ ENOENT); reflexivity.
Qed.

Example run_rejected :
  main 0 strerror_linux kernel_rejects sample_path 2
       ["uname26"; "echo"] fresh =
  mkRun [CallPersonality 0x0020000 (Rejected EINVAL)]
        {| persona := 0; errno := EINVAL;
           stderr := "personality: Invalid argument" ++ nl |}
        (Exited 1).
Proof.
  rewrite (main_rejected _ _ _ _ _ _ _ _ _ EINVAL); reflexivity.
Qed.

Example run_without_arguments :
  main 0 strerror_linux kernel_rejects sample_path 1 ["uname26"] fresh =
  mkRun []
        {| persona := 0; errno := 0;
           stderr := "Usage: uname26 program ..." ++ nl ++
                     "Run program with the uname 2.6 personality" ++ nl |}
        (Exited 1).
Proof.
  rewrite main_no_target. reflexivity.
Qed.

Example run_with_top_bit :
  main 0 strerror_linux kernel_accepts sample_path 2
       ["uname26"; "echo"] top_bit_set =
  mkRun [CallPersonality 0x0020000 Accepted]
        {| persona := 0x0020000; errno := 0;
           stderr := "personality: Success" ++ nl |}
        (Exited 1).
Proof.
  rewrite main_return_negative; reflexivity.
Qed.

Example run_script :
  main 0 strerror_linux kernel_accepts sample_path 3
       ["uname26"; "hello"; "world"] fresh =
  mkRun [CallPersonality 0x0020000 Accepted;
         CallExecvp "hello" ["hello"; "world"]
                    (Loaded "/bin/sh" ["/bin/sh"; "/usr/bin/hello"; "world"])]
        {| persona := 0x0020000; errno := 0; stderr := "" |}
        (Replaced "/bin/sh" ["/bin/sh"; "/usr/bin/hello"; "world"]).
Proof.
  apply main_replaced; reflexivity.
Qed.

(** C1 as the claim has it fails: with a target present the process image
    is not replaced when the personality request is rejected (no
    replacement is even asked for), when the target is not found, or when
    the accepted request returns a negative number; and the image that is
    started for a script has the interpreter, not the target name, as its
    argument zero. *)
Lemma target_not_always_run :
  slot ["uname26"; "echo"; "hi"] 1 = Some (Str "echo") /\
  result (main 0 strerror_linux kernel_rejects sample_path 3
               ["uname26"; "echo"; "hi"] fresh) = Exited 1 /\
  trace (main 0 strerror_linux kernel_rejects sample_path 3
              ["uname26"; "echo"; "hi"] fresh) =
    [CallPersonality 0x0020000 (Rejected EINVAL)] /\
  slot ["uname26"; "nonesuch"; "-v"] 1 = Some (Str "nonesuch") /\
  result (main 0 strerror_linux kernel_accepts sample_path 3
               ["uname26"; "nonesuch"; "-v"] fresh) = Exited 1 /\
  result (main 0 strerror_linux kernel_accepts sample_path 2
               ["uname26"; "echo"] top_bit_set) = Exited 1 /\
  trace (main 0 strerror_linux kernel_accepts sample_path 2
              ["uname26"; "echo"] top_bit_set) =
    [CallPersonality 0x0020000 Accepted] /\
  result (main 0 strerror_linux kernel_accepts sample_path 3
               ["uname26"; "hello"; "world"] fresh) =
    Replaced "/bin/sh" ["/bin/sh"; "/usr/bin/hello"; "world"].
Proof.
  rewrite run_missing_target, run_with_top_bit, run_script.
  rewrite (main_rejected _ _ _ _ _ _ _ _ _ EINVAL) by reflexivity.
  cbn [result trace].
  repeat (split; [reflexivity |]); reflexivity.
Qed.

Lemma execvp_called_with_target_vector_witness :
  kernel_accepts (requested 0) fresh = Accepted /\
  N.testbit (persona fresh) 31 = false /\
  trace (main 0 strerror_linux kernel_accepts sample_path 4
              ["uname26"; "echo"; "hello"; "world"] fresh) =
    [CallPersonality (requested 0) Accepted;
     CallExecvp "echo" ["echo"; "hello"; "world"]
                (Loaded "/bin/echo" ["echo"; "hello"; "world"])].
Proof.
  assert (Hk : kernel_accepts (requested 0) fresh = Accepted) by reflexivity.
  assert (Htop : N.testbit (persona fresh) 31 = false) by reflexivity.
  split; [exact Hk | split; [exact Htop |]].
  destruct (execvp_called_with_target_vector 0 strerror_linux kernel_accepts
              sample_path 4 "uname26" "echo" ["hello"; "world"] fresh
              Hk Htop) as (_ & Htrace & _).
  exact Htrace.
Defined.


Lemma cannot_execute_report_witness :
  In (CallExecvp "nonesuch" ["nonesuch"; "-v"] (Refused ENOENT))
     (trace (main 0 strerror_linux kernel_accepts sample_path 3
                  ["uname26"; "nonesuch"; "-v"] fresh)) /\
  stderr (final (main 0 strerror_linux kernel_accepts sample_path 3
                      ["uname26"; "nonesuch"; "-v"] fresh)) =
    "Cannot execute nonesuch: No such file or directory" ++ nl.
Proof.
  assert (Hin : In (CallExecvp "nonesuch" ["nonesuch"; "-v"] (Refused ENOENT))
                   (trace (main 0 strerror_linux kernel_accepts sample_path 3
                                ["uname26"; "nonesuch"; "-v"] fresh))).
  { right. left. reflexivity. }
  split; [exact Hin |].
  destruct (cannot_execute_report 0 strerror_linux kernel_accepts sample_path
              3 ["uname26"; "nonesuch"; "-v"] fresh _ _ _ Hin)
    as (_ & Herr & _).
  exact Herr.
Defined.

Lemma personality_kept_on_exec_failure_witness :
  In (CallExecvp "nonesuch" ["nonesuch"; "-v"] (Refused ENOENT))
     (trace (main 0 strerror_linux kernel_accepts sample_path 3
                  ["uname26"; "nonesuch"; "-v"] fresh)) /\
  persona fresh = 0%N /\
  persona (final (main 0 strerror_linux kernel_accepts sample_path 3
                       ["uname26"; "nonesuch"; "-v"] fresh)) = 0x0020000%N.
Proof.
  assert (Hin : In (CallExecvp "nonesuch" ["nonesuch"; "-v"] (Refused ENOENT))
                   (trace (main 0 strerror_linux kernel_accepts sample_path 3
                                ["uname26"; "nonesuch"; "-v"] fresh))).
  { right. left. reflexivity. }
  split; [exact Hin | split; [reflexivity |]].
  destruct (personality_kept_on_exec_failure 0 strerror_linux kernel_accepts
              sample_path 3 ["uname26"; "nonesuch"; "-v"] fresh _ _ _ Hin)
    as (_ & Hper & _).
  exact Hper.
Defined.




Lemma target_vector_is_shifted_witness :
  In (CallExecvp "echo" ["echo"; "hello"; "world"]
                 (Loaded "/bin/echo" ["echo"; "hello"; "world"]))
     (trace (main 0 strerror_linux kernel_accepts sample_path 4
                  ["uname26"; "echo"; "hello"; "world"] fresh)) /\
  S (List.length ["echo"; "hello"; "world"]) =
    List.length ["uname26"; "echo"; "hello"; "world"].
Proof.
  assert (Hin : In (CallExecvp "echo" ["echo"; "hello"; "world"]
                               (Loaded "/bin/echo" ["echo"; "hello"; "world"]))
                   (trace (main 0 strerror_linux kernel_accepts sample_path 4
                                ["uname26"; "echo"; "hello"; "world"] fresh))).
  { right. left. reflexivity. }
  split; [exact Hin |].
  destruct (target_vector_is_shifted 0 strerror_linux kernel_accepts
              sample_path 4 ["uname26"; "echo"; "hello"; "world"] fresh
              _ _ _ Hin) as (_ & _ & _ & Hlen).
  exact Hlen.
Defined.
